(** * CameraCapture: the camera acquisition logic of [src/components/CameraCapture.tsx]

    A shallow embedding of the React component's handlers as state
    transformers over the component state (the [useState] cells and the two
    refs) extended with the part of the browser they act on: the hardware
    tracks that are live and the [getUserMedia] calls issued so far.

    Every handler is modelled run to completion: an [await] is answered by
    the environment inside the same transition. *)

From stdpp Require Import base option list gmap strings.
From Stdlib Require Import ZArith Lia.

Local Open Scope string_scope.

#[local] Set Warnings "-clear-no-such-hyp".

(** ** Browser values *)

(** What a rejected promise carries: a [DOMException] or an [Error], of which
    the code reads [name] and [message]. *)
Record JsError := mkError { name : string; message : string }.

(** [new Error(m)] *)
Definition new_Error (m : string) : JsError := mkError "Error" m.

(** The [video] member of a [MediaStreamConstraints]. *)
Inductive VideoConstraint :=
| facingMode (mode : string)      (* video: { facingMode: mode } *)
| anyVideo.                       (* video: true *)

Record Constraints := mkConstraints { video : VideoConstraint; audio : bool }.

(** A [MediaStream]; its tracks are named by the hardware track they hold. *)
Record MediaStream := mkStream { stream_id : nat; getTracks : list nat }.

#[global] Instance JsError_eq_dec : EqDecision JsError.
Proof. solve_decision. Defined.
#[global] Instance VideoConstraint_eq_dec : EqDecision VideoConstraint.
Proof. solve_decision. Defined.
#[global] Instance Constraints_eq_dec : EqDecision Constraints.
Proof. solve_decision. Defined.
#[global] Instance MediaStream_eq_dec : EqDecision MediaStream.
Proof. solve_decision. Defined.

(** The settlement of one [getUserMedia] promise. *)
Inductive GumResult :=
| Resolved (s : MediaStream)
| Rejected (e : JsError).

(** [navigator.mediaDevices.getUserMedia]; the platform's answer may depend
    on how many calls came before, so it is indexed by that number. *)
Record MediaDevices := mkMediaDevices
  { getUserMedia : option (nat -> Constraints -> GumResult) }.

Record Navigator := mkNavigator { mediaDevices : option MediaDevices }.

Record Location := mkLocation { protocol : string; hostname : string }.

Record Env := mkEnv { navigator : Navigator; location : Location }.

(** ** Component state *)

Record HTMLVideoElement := mkVideo
  { srcObject : option MediaStream;
    onloadedmetadata : bool;          (* is the handler of line 70 installed *)
    videoWidth : Z;
    videoHeight : Z }.

Record HTMLCanvasElement := mkCanvas
  { getContext2d : bool;              (* does getContext('2d') return a context *)
    width : Z;
    height : Z }.

Record AnalysisResult := mkResult
  { id : string; timestamp : string; imageData : string; description : string }.

Record State := mkState
  { videoRef : option HTMLVideoElement;     (* videoRef.current *)
    canvasRef : option HTMLCanvasElement;   (* canvasRef.current *)
    isStreaming : bool;
    analyzing : bool;
    error : option string;
    timerArmed : bool;                      (* the setTimeout of the effect *)
    liveTracks : gset nat;                  (* tracks not yet stopped *)
    gumCalls : list Constraints;            (* getUserMedia calls, oldest first *)
    reported : list AnalysisResult }.       (* onAnalysisComplete calls *)

Definition setVideoRef (v : option HTMLVideoElement) (st : State) : State :=
  mkState v (canvasRef st) (isStreaming st) (analyzing st) (error st)
          (timerArmed st) (liveTracks st) (gumCalls st) (reported st).

Definition setCanvasRef (c : option HTMLCanvasElement) (st : State) : State :=
  mkState (videoRef st) c (isStreaming st) (analyzing st) (error st)
          (timerArmed st) (liveTracks st) (gumCalls st) (reported st).

Definition setIsStreaming (b : bool) (st : State) : State :=
  mkState (videoRef st) (canvasRef st) b (analyzing st) (error st)
          (timerArmed st) (liveTracks st) (gumCalls st) (reported st).

Definition setAnalyzing (b : bool) (st : State) : State :=
  mkState (videoRef st) (canvasRef st) (isStreaming st) b (error st)
          (timerArmed st) (liveTracks st) (gumCalls st) (reported st).

Definition setError (e : option string) (st : State) : State :=
  mkState (videoRef st) (canvasRef st) (isStreaming st) (analyzing st) e
          (timerArmed st) (liveTracks st) (gumCalls st) (reported st).

Definition setTimerArmed (b : bool) (st : State) : State :=
  mkState (videoRef st) (canvasRef st) (isStreaming st) (analyzing st) (error st)
          b (liveTracks st) (gumCalls st) (reported st).

Definition setLiveTracks (l : gset nat) (st : State) : State :=
  mkState (videoRef st) (canvasRef st) (isStreaming st) (analyzing st) (error st)
          (timerArmed st) l (gumCalls st) (reported st).

Definition setGumCalls (cs : list Constraints) (st : State) : State :=
  mkState (videoRef st) (canvasRef st) (isStreaming st) (analyzing st) (error st)
          (timerArmed st) (liveTracks st) cs (reported st).

Definition setReported (rs : list AnalysisResult) (st : State) : State :=
  mkState (videoRef st) (canvasRef st) (isStreaming st) (analyzing st) (error st)
          (timerArmed st) (liveTracks st) (gumCalls st) rs.

(** [videoRef.current?.srcObject] *)
Definition attached (st : State) : option MediaStream :=
  match videoRef st with
  | Some v => srcObject v
  | None => None
  end.

(** A stream is live while one of its tracks is. *)
Definition stream_live (s : MediaStream) (st : State) : bool :=
  existsb (fun t => bool_decide (t ∈ liveTracks st)) (getTracks s).

(** ** stopTracks (lines 18-22) *)

(** [track.stop()] *)
Definition track_stop (t : nat) (st : State) : State :=
  setLiveTracks (liveTracks st ∖ {[ t ]}) st.

Definition stopTracks (stream : option MediaStream) (st : State) : State :=
  match stream with
  | Some s => foldl (fun acc t => track_stop t acc) st (getTracks s)
  | None => st
  end.

(** ** startCamera (lines 24-102) *)

Definition msg_unsupported : string :=
  "Camera API not supported. Please use a modern browser and ensure you are on HTTPS.".
Definition msg_unable : string := "Unable to access camera.".
Definition msg_denied : string :=
  "Camera permission denied. Please reset permissions for this site in your browser settings.".
Definition msg_not_found : string := "No camera device found on this device.".
Definition msg_in_use : string :=
  "Camera is currently in use by another application. Please close other apps and try again.".
Definition msg_overconstrained : string := "Camera constraints could not be satisfied.".
Definition msg_insecure : string := "Camera access requires a secure HTTPS connection.".
Definition msg_play_failed : string :=
  "Camera permission granted, but video preview failed to start.".

(** The strategy list of lines 39-46. *)
Definition strategies : list Constraints :=
  [ mkConstraints (facingMode "environment") false;
    mkConstraints (facingMode "user") false;
    mkConstraints anyVideo false ].

(** The capability check of line 29, returning the function when it passes. *)
Definition capability (nav : Navigator) : option (nat -> Constraints -> GumResult) :=
  match mediaDevices nav with
  | Some md => getUserMedia md
  | None => None
  end.

(** One [await navigator.mediaDevices.getUserMedia(constraints)]: the call is
    recorded, and a resolved stream comes with its tracks live. *)
Definition call_getUserMedia (gum : nat -> Constraints -> GumResult)
    (c : Constraints) (st : State) : GumResult * State :=
  let r := gum (length (gumCalls st)) c in
  let st1 := setGumCalls (gumCalls st ++ [c]) st in
  match r with
  | Resolved s => (r, setLiveTracks (liveTracks st1 ∪ list_to_set (getTracks s)) st1)
  | Rejected _ => (r, st1)
  end.

(** The loop of lines 48-59, on the locals [stream] and [lastError]. A
    [MediaStream] is an object, so the test of line 51 passes whenever the
    promise resolves. *)
Fixpoint try_strategies (gum : nat -> Constraints -> GumResult)
    (cs : list Constraints) (lastError : option JsError) (st : State)
    : option MediaStream * option JsError * State :=
  match cs with
  | [] => (None, lastError, st)
  | c :: rest =>
      match call_getUserMedia gum c st with
      | (Resolved s, st1) => (Some s, lastError, st1)
      | (Rejected e, st1) => try_strategies gum rest (Some e) st1
      end
  end.

(** The message chosen by the catch block, lines 86-98. *)
Definition error_message (err : JsError) (loc : Location) : string :=
  if bool_decide (name err = "NotAllowedError") || bool_decide (name err = "PermissionDeniedError")
  then msg_denied
  else if bool_decide (name err = "NotFoundError") || bool_decide (name err = "DevicesNotFoundError")
  then msg_not_found
  else if bool_decide (name err = "NotReadableError") || bool_decide (name err = "TrackStartError")
  then msg_in_use
  else if bool_decide (name err = "OverconstrainedError")
  then msg_overconstrained
  else if bool_decide (protocol loc <> "https:") && bool_decide (hostname loc <> "localhost")
  then msg_insecure
  else msg_unable.

(** What the acquisition part of [startCamera] ends with: the stream that
    reaches line 66, or the message handed to [setError]. *)
Inductive Acquired :=
| Stream (s : MediaStream)
| ErrorMessage (msg : string).

(** Lines 29-64 and 83-100, over a given strategy list. *)
Definition acquire_with (cs : list Constraints) (env : Env) (st : State)
    : Acquired * State :=
  match capability (navigator env) with
  | None => (ErrorMessage msg_unsupported, st)
  | Some gum =>
      match try_strategies gum cs None st with
      | (Some s, _, st1) => (Stream s, st1)
      | (None, lastError, st1) =>
          (* throw lastError || new Error("No camera devices found.") *)
          let err := default (new_Error "No camera devices found.") lastError in
          (ErrorMessage (error_message err (location env)), st1)
      end
  end.

(** Lines 66-82: attach the stream and install the metadata handler, or stop
    the stream when the video element is gone. Nothing is done to the stream
    that [srcObject] held before. *)
Definition attach_stream (s : MediaStream) (st : State) : State :=
  match videoRef st with
  | Some v =>
      setVideoRef (Some (mkVideo (Some s) true (videoWidth v) (videoHeight v))) st
  | None => stopTracks (Some s) st
  end.

Definition startCamera_with (cs : list Constraints) (env : Env) (st : State) : State :=
  let st0 := setError None (setIsStreaming false st) in
  match acquire_with cs env st0 with
  | (ErrorMessage msg, st1) => setError (Some msg) st1
  | (Stream s, st1) => attach_stream s st1
  end.

Definition acquire : Env -> State -> Acquired * State := acquire_with strategies.
Definition startCamera : Env -> State -> State := startCamera_with strategies.

(** The handler installed at line 70. [play] is how [video.play()] settles;
    with the element gone, [videoRef.current?.play()] is [undefined] and
    nothing is awaited. *)
Inductive PlayResult := PlayStarted | PlayRejected.

Definition on_loadedmetadata (play : PlayResult) (st : State) : State :=
  match videoRef st with
  | Some _ =>
      match play with
      | PlayStarted => setIsStreaming true st
      | PlayRejected => setError (Some msg_play_failed) st
      end
  | None => setIsStreaming true st
  end.

(** ** stopCamera (lines 104-111) *)

Definition stopCamera (st : State) : State :=
  match videoRef st with
  | Some v =>
      match srcObject v with
      | Some stream =>
          let st1 := stopTracks (Some stream) st in
          let st2 :=
            setVideoRef (Some (mkVideo None (onloadedmetadata v) (videoWidth v) (videoHeight v))) st1 in
          setIsStreaming false st2
      | None => st
      end
  | None => st
  end.

(** ** The effect (lines 113-136) *)

(** JavaScript truthiness of the [error] cell: [null] and the empty string
    are falsy. *)
Definition truthy (e : option string) : bool :=
  match e with
  | Some s => negb (bool_decide (s = ""))
  | None => false
  end.

(** The body of the effect arms the timer (and registers the listener). *)
Definition effect_setup (st : State) : State := setTimerArmed true st.

(** Its cleanup (lines 130-135). *)
Definition effect_cleanup (st : State) : State :=
  stopCamera (setTimerArmed false st).

(** [handleVisibilityChange] (lines 121-127), for a listener that is still
    registered. *)
Definition handleVisibilityChange (env : Env) (visibilityState : string)
    (st : State) : State :=
  if bool_decide (visibilityState = "visible") then
    if negb (bool_decide (is_Some (attached st))) && negb (truthy (error st))
    then startCamera env st
    else st
  else st.

(** ** captureAndAnalyze (lines 138-170) *)

(** A caught value: an [Error] instance or anything else. *)
Inductive Thrown :=
| ThrownError (e : JsError)
| ThrownOther.

(** How [analyzeImageWithGemini] settles. *)
Inductive AnalysisResponse :=
| Responded (text : string)
| Failing (t : Thrown).

(** What one capture reads from the platform and the service. *)
Record Capture := mkCapture
  { toDataURL : string;          (* canvas.toDataURL('image/jpeg', 0.8) *)
    randomUUID : string;
    now : string;                (* new Date().toISOString() *)
    response : AnalysisResponse }.

(** Lines 139-151: up to the [await]. The boolean tells whether the analysis
    call was issued. *)
Definition capture_begin (st : State) : State * bool :=
  match videoRef st, canvasRef st with
  | Some video, Some canvas =>
      let st1 := setAnalyzing true st in
      if getContext2d canvas then
        (setCanvasRef
           (Some (mkCanvas (getContext2d canvas) (videoWidth video) (videoHeight video)))
           st1, true)
      else (st1, false)
  | _, _ => (st, false)
  end.

(** [err instanceof Error ? err.message : "Analysis failed"] (line 165) *)
Definition analysis_error (t : Thrown) : string :=
  match t with
  | ThrownError e => message e
  | ThrownOther => "Analysis failed"
  end.

(** Lines 153-168: the settlement of the analysis call. *)
Definition capture_settle (cap : Capture) (st : State) : State :=
  let st1 :=
    match response cap with
    | Responded text =>
        setReported
          (reported st ++ [mkResult (randomUUID cap) (now cap) (toDataURL cap) text]) st
    | Failing t => setError (Some (analysis_error t)) st
    end in
  setAnalyzing false st1.

Definition captureAndAnalyze (cap : Capture) (st : State) : State :=
  match capture_begin st with
  | (st1, true) => capture_settle cap st1
  | (st1, false) => st1
  end.

(** [disabled={!isStreaming || analyzing}] (line 228) *)
Definition capture_disabled (st : State) : bool :=
  negb (isStreaming st) || analyzing st.

(** ** Events *)

(** What can happen to a mounted component. React re-runs the effect, cleanup
    first, whenever [error] differs between two renders (the other two
    dependencies never change); as one handler may span several renders, the
    re-run is an event of its own, free to occur at any point. *)
Inductive Event :=
| EvTimer                                   (* the timeout of line 117 fires *)
| EvVisibilityChange (visibilityState : string)
| EvRetryClick                              (* line 197 *)
| EvLoadedMetadata (play : PlayResult)      (* the video element loaded a stream *)
| EvCaptureClick (cap : Capture)            (* line 227 *)
| EvEffectRerun.                            (* a dependency of the effect changed *)

(** One event, [None] when the event cannot occur in [st]: a timer that is
    not armed, a button that is not rendered or is disabled, a video element
    with no stream to load. *)
Definition step (env : Env) (ev : Event) (st : State) : option State :=
  match ev with
  | EvTimer =>
      if timerArmed st then Some (startCamera env (setTimerArmed false st)) else None
  | EvVisibilityChange v => Some (handleVisibilityChange env v st)
  | EvRetryClick =>
      if truthy (error st) then Some (startCamera env (setError None st)) else None
  | EvLoadedMetadata play =>
      match videoRef st with
      | Some v =>
          if onloadedmetadata v && bool_decide (is_Some (srcObject v))
          then Some (on_loadedmetadata play st)
          else None
      | None => None
      end
  | EvCaptureClick cap =>
      if capture_disabled st then None else Some (captureAndAnalyze cap st)
  | EvEffectRerun => Some (effect_setup (effect_cleanup st))
  end.

Fixpoint run (env : Env) (evs : list Event) (st : State) : option State :=
  match evs with
  | [] => Some st
  | ev :: rest =>
      match step env ev st with
      | Some st1 => run env rest st1
      | None => None
      end
  end.

(** The component right after its first commit: both elements mounted, the
    state cells at their initial values, the effect set up. *)
Definition mounted (v_w v_h : Z) (has2d : bool) : State :=
  mkState (Some (mkVideo None false v_w v_h)) (Some (mkCanvas has2d 300 150))
          false false None true ∅ [] [].

Inductive reachable (env : Env) : State -> Prop :=
| reach_mounted v_w v_h has2d : reachable env (mounted v_w v_h has2d)
| reach_step ev st st1 :
    reachable env st -> step env ev st = Some st1 -> reachable env st1.

(** ** The specification's vocabulary *)

Inductive FailureKind :=
| Unsupported | PermissionDenied | DeviceNotFound | DeviceBusy
| ConstraintsUnsatisfiable | InsecureContext | Unknown.

Inductive AcquisitionOutcome :=
| Active (handle : MediaStream)
| Failed (kind : FailureKind).

#[global] Instance FailureKind_eq_dec : EqDecision FailureKind.
Proof. solve_decision. Defined.

(** The kind a displayed message stands for. *)
Definition kind_of_message (msg : string) : option FailureKind :=
  if bool_decide (msg = msg_unsupported) then Some Unsupported
  else if bool_decide (msg = msg_denied) then Some PermissionDenied
  else if bool_decide (msg = msg_not_found) then Some DeviceNotFound
  else if bool_decide (msg = msg_in_use) then Some DeviceBusy
  else if bool_decide (msg = msg_overconstrained) then Some ConstraintsUnsatisfiable
  else if bool_decide (msg = msg_insecure) then Some InsecureContext
  else if bool_decide (msg = msg_unable) then Some Unknown
  else None.

Definition outcome_of (a : Acquired) : option AcquisitionOutcome :=
  match a with
  | Stream s => Some (Active s)
  | ErrorMessage msg => Failed <$> kind_of_message msg
  end.


(** The strategies of [cs] are answered, from call number [n] on, by the
    rejections [errs], one each. *)
Fixpoint rejects (gum : nat -> Constraints -> GumResult) (n : nat)
    (cs : list Constraints) (errs : list JsError) : Prop :=
  match cs, errs with
  | [], [] => True
  | c :: cs1, e :: errs1 => gum n c = Rejected e /\ rejects gum (S n) cs1 errs1
  | _, _ => False
  end.

(** The four conditions on the error itself, in the order of the catch block. *)
Definition is_denied (e : JsError) : Prop :=
  name e = "NotAllowedError" \/ name e = "PermissionDeniedError".
Definition is_not_found (e : JsError) : Prop :=
  name e = "NotFoundError" \/ name e = "DevicesNotFoundError".
Definition is_busy (e : JsError) : Prop :=
  name e = "NotReadableError" \/ name e = "TrackStartError".
Definition is_overconstrained (e : JsError) : Prop :=
  name e = "OverconstrainedError".

(** The page-level test of line 96. *)
Definition insecure (loc : Location) : Prop :=
  protocol loc <> "https:" /\ hostname loc <> "localhost".


(** ** Sample platforms *)

Module Samples.

Definition denied : JsError := mkError "NotAllowedError" "Permission denied".
Definition busy : JsError := mkError "NotReadableError" "Could not start video source".
Definition aborted : JsError := mkError "AbortError" "Starting videoinput failed".

Definition rear : MediaStream := mkStream 1 [1].
Definition front : MediaStream := mkStream 2 [2].

Definition https_page : Location := mkLocation "https:" "example.org".
Definition http_page : Location := mkLocation "http:" "192.168.1.20".

Definition env_of (gum : nat -> Constraints -> GumResult) (loc : Location) : Env :=
  mkEnv (mkNavigator (Some (mkMediaDevices (Some gum)))) loc.

(** No [navigator.mediaDevices] at all. *)
Definition env_no_api : Env := mkEnv (mkNavigator None) http_page.

(** Every call is refused by the user. *)
Definition gum_denied : nat -> Constraints -> GumResult := fun _ _ => Rejected denied.

(** The first call finds the device busy, every later one is refused. *)
Definition gum_busy_then_denied : nat -> Constraints -> GumResult :=
  fun n _ => match n with 0 => Rejected busy | _ => Rejected denied end.

(** The rear camera is missing, the front camera opens. *)
Definition gum_front_only : nat -> Constraints -> GumResult :=
  fun _ c => match video c with
             | facingMode "environment" => Rejected (mkError "OverconstrainedError" "")
             | _ => Resolved front
             end.

(** The first call opens the rear camera, later calls the front camera. *)
Definition gum_rear_then_front : nat -> Constraints -> GumResult :=
  fun n _ => match n with 0 => Resolved rear | _ => Resolved front end.

Definition st0 : State := mounted 640 480 true.

(** A mounted component whose canvas yields no 2d context. *)
Definition st_no2d : State := mounted 640 480 false.

Definition quota : JsError := mkError "Error" "Quota exceeded".

Definition cap_ok : Capture :=
  mkCapture "data:image/jpeg;base64,AAAA" "uuid-1" "2024-01-01T00:00:00.000Z"
            (Responded "a desk").
Definition cap_fail : Capture :=
  mkCapture "data:image/jpeg;base64,AAAA" "uuid-2" "2024-01-01T00:00:01.000Z"
            (Failing (ThrownError quota)).

(** Two cameras behind the same page. *)
Definition env_two_cameras : Env := env_of gum_rear_then_front https_page.

(** The component streaming the rear camera: the timer fired, the stream
    opened and playback started. *)
Definition st_streaming : State :=
  on_loadedmetadata PlayStarted (startCamera env_two_cameras (setTimerArmed false st0)).

End Samples.

(** ** What is rendered (lines 172-244) *)

(** The spinner of line 176 and the footer test of line 241. *)
Definition loading_shown (st : State) : bool :=
  negb (isStreaming st) && negb (truthy (error st)).

(** The error overlay of line 184, which holds the retry button. *)
Definition error_shown (st : State) : bool := truthy (error st).

(** The class of the video element (line 211). *)
Definition video_opacity (st : State) : string :=
  if isStreaming st then "opacity-100" else "opacity-0".

(** The footer of line 241. *)
Definition footer_text (st : State) : string :=
  if negb (isStreaming st) && negb (truthy (error st))
  then "Waiting for camera..." else "Tap button to analyze".

(** ** Ownership of the live tracks *)


(** A live track that the attached stream, if any, does not hold. *)
Definition orphan (t : nat) (st : State) : Prop :=
  t ∈ liveTracks st /\ forall s, attached st = Some s -> t ∉ getTracks s.


(** ** More sample states *)

Module Scenes.

(** The rear stream was opened by the visibility handler and then replaced by
    the front stream when the timer fired. *)
Definition st_replaced : State :=
  startCamera Samples.env_two_cameras
    (setTimerArmed false (startCamera Samples.env_two_cameras Samples.st0)).

(** An [Error] with no message. *)
Definition silent : JsError := mkError "Error" "".

Definition cap_silent : Capture :=
  mkCapture "data:image/jpeg;base64,AAAA" "uuid-3" "2024-01-01T00:00:02.000Z"
            (Failing (ThrownError silent)).

(** Streaming, but the video element is gone. *)
Definition st_detached : State := setVideoRef None Samples.st_streaming.

End Scenes.

(** * Properties *)

(** ** Shape of the platform updates *)

(** [stopTracks] only removes the stream's tracks from the live ones. *)
Lemma stopTracks_shape s st :
  stopTracks (Some s) st =
    setLiveTracks (liveTracks st ∖ list_to_set (getTracks s)) st.
Proof.
  simpl. generalize dependent st.
  induction (getTracks s) as [|t ts IH]; intros st; simpl.
  - destruct st. unfold setLiveTracks. simpl. f_equal. set_solver.
  - rewrite IH. unfold track_stop, setLiveTracks. simpl. f_equal. set_solver.
Qed.

(** The loop only appends to the call log and adds live tracks. *)
Lemma try_strategies_shape gum cs : forall lastError st,
  exists L G, (try_strategies gum cs lastError st).2 = setLiveTracks L (setGumCalls G st).
Proof.
  induction cs as [|c cs IH]; intros lastError st; simpl.
  - exists (liveTracks st), (gumCalls st). destruct st. reflexivity.
  - unfold call_getUserMedia.
    destruct (gum (length (gumCalls st)) c) as [s|e].
    + eexists _, _. reflexivity.
    + destruct (IH (Some e) (setGumCalls (gumCalls st ++ [c]) st)) as (L & G & ->).
      eexists _, _. reflexivity.
Qed.

Lemma acquire_with_shape cs env st :
  exists L G, (acquire_with cs env st).2 = setLiveTracks L (setGumCalls G st).
Proof.
  unfold acquire_with. destruct (capability (navigator env)) as [gum|].
  - destruct (try_strategies_shape gum cs None st) as (L & G & H).
    destruct (try_strategies gum cs None st) as [[[s|] le] st1]; simpl in *;
      exists L, G; exact H.
  - exists (liveTracks st), (gumCalls st). destruct st. reflexivity.
Qed.

(** What the loop returns depends on the state through the call log only. *)
Lemma try_strategies_result gum cs : forall lastError st st',
  gumCalls st = gumCalls st' ->
  (try_strategies gum cs lastError st).1 = (try_strategies gum cs lastError st').1.
Proof.
  induction cs as [|c cs IH]; intros lastError st st' H; simpl.
  - reflexivity.
  - unfold call_getUserMedia. rewrite <- H.
    destruct (gum (length (gumCalls st)) c) as [s|e].
    + reflexivity.
    + apply IH. simpl. rewrite H. reflexivity.
Qed.

Lemma acquire_with_result cs env st st' :
  gumCalls st = gumCalls st' ->
  (acquire_with cs env st).1 = (acquire_with cs env st').1.
Proof.
  intros H. unfold acquire_with. destruct (capability (navigator env)) as [gum|].
  - pose proof (try_strategies_result gum cs None st st' H) as E.
    destruct (try_strategies gum cs None st) as [[[s|] le] st1];
      destruct (try_strategies gum cs None st') as [[[s'|] le'] st1'];
      simpl in E; inversion E; subst; reflexivity.
  - reflexivity.
Qed.

(** [startCamera] leaves the analysis flag, the canvas and the timer alone
    and always ends with the streaming flag down. *)
Lemma startCamera_with_frame cs env st :
  let st1 := startCamera_with cs env st in
  isStreaming st1 = false /\ analyzing st1 = analyzing st
  /\ canvasRef st1 = canvasRef st /\ timerArmed st1 = timerArmed st.
Proof.
  unfold startCamera_with.
  destruct (acquire_with_shape cs env (setError None (setIsStreaming false st)))
    as (L & G & H).
  destruct (acquire_with cs env (setError None (setIsStreaming false st)))
    as [[s|msg] st1]; simpl in H; subst st1.
  - unfold attach_stream.
    destruct (videoRef (setLiveTracks L _)) as [v|].
    + simpl. auto.
    + rewrite stopTracks_shape. simpl. auto.
  - simpl. auto.
Qed.


Lemma startCamera_analyzing env st : analyzing (startCamera env st) = analyzing st.
Proof. apply (startCamera_with_frame strategies env st). Qed.

(** ** The strategy loop *)

Lemma setGumCalls_nil st : setGumCalls (gumCalls st ++ []) st = st.
Proof. destruct st. unfold setGumCalls. simpl. rewrite app_nil_r. reflexivity. Qed.

Lemma last_cons_keep (e : JsError) errs lastError :
  from_option Some (Some e) (last errs) = from_option Some lastError (last (e :: errs)).
Proof.
  destruct errs as [|e1 errs1]; [reflexivity|].
  change (last (e :: e1 :: errs1)) with (last (e1 :: errs1)).
  destruct (last (e1 :: errs1)) eqn:E; [reflexivity|].
  apply last_None in E. discriminate.
Qed.

(** When every strategy is rejected the loop leaves [stream] null, has tried
    each strategy once and in order, and holds the last rejection. *)
Lemma try_strategies_rejected gum cs : forall errs lastError st,
  rejects gum (length (gumCalls st)) cs errs ->
  try_strategies gum cs lastError st =
    (None, from_option Some lastError (last errs), setGumCalls (gumCalls st ++ cs) st).
Proof.
  induction cs as [|c cs IH]; intros errs lastError st H.
  - destruct errs; [|contradiction]. simpl. rewrite setGumCalls_nil. reflexivity.
  - destruct errs as [|e errs]; [contradiction|]. destruct H as [Hc Hrest].
    simpl. unfold call_getUserMedia. rewrite Hc.
    rewrite (IH errs (Some e)).
    + simpl. unfold setGumCalls at 1. simpl. rewrite <- app_assoc. simpl.
      rewrite last_cons_keep with (lastError := lastError). reflexivity.
    + simpl. rewrite length_app. simpl.
      replace (length (gumCalls st) + 1) with (S (length (gumCalls st))) by lia.
      exact Hrest.
Qed.

Lemma rejects_length gum cs : forall n errs,
  rejects gum n cs errs -> length errs = length cs.
Proof.
  induction cs as [|c cs IH]; intros n [|e errs] H; simpl in *; try contradiction.
  - reflexivity.
  - f_equal. apply (IH (S n)). tauto.
Qed.

(** When the strategies of [pre] are rejected and the next one resolves, the
    loop ends there with that stream. *)
Lemma try_strategies_first_success gum pre : forall errs c post s lastError st,
  rejects gum (length (gumCalls st)) pre errs ->
  gum (length (gumCalls st) + length pre) c = Resolved s ->
  try_strategies gum (pre ++ c :: post) lastError st =
    (Some s, from_option Some lastError (last errs),
     setLiveTracks (liveTracks st ∪ list_to_set (getTracks s))
       (setGumCalls (gumCalls st ++ pre ++ [c]) st)).
Proof.
  induction pre as [|p pre IH]; intros errs c post s lastError st H Hc.
  - destruct errs; [|contradiction]. simpl in *.
    unfold call_getUserMedia. rewrite Nat.add_0_r in Hc. rewrite Hc. reflexivity.
  - destruct errs as [|e errs]; [contradiction|]. destruct H as [Hp Hrest].
    simpl. unfold call_getUserMedia at 1. rewrite Hp.
    rewrite (IH errs c post s (Some e)).
    + simpl. unfold setGumCalls, setLiveTracks. simpl. rewrite <- app_assoc. simpl.
      rewrite last_cons_keep with (lastError := lastError). reflexivity.
    + simpl. rewrite length_app. simpl.
      replace (length (gumCalls st) + 1) with (S (length (gumCalls st))) by lia.
      exact Hrest.
    + simpl. rewrite length_app. simpl. rewrite <- Hc. f_equal. simpl. lia.
Qed.

(** ** The classification *)

Lemma messages_distinct :
  NoDup [msg_unsupported; msg_denied; msg_not_found; msg_in_use;
         msg_overconstrained; msg_insecure; msg_unable; msg_play_failed].
Proof. apply (bool_decide_unpack _). vm_compute. exact I. Qed.

(** The kind of the message picked by the catch block. *)
Lemma kind_of_error_message e loc :
  kind_of_message (error_message e loc) =
    Some (if bool_decide (is_denied e) then PermissionDenied
          else if bool_decide (is_not_found e) then DeviceNotFound
          else if bool_decide (is_busy e) then DeviceBusy
          else if bool_decide (is_overconstrained e) then ConstraintsUnsatisfiable
          else if bool_decide (insecure loc) then InsecureContext
          else Unknown).
Proof.
  unfold error_message, is_denied, is_not_found, is_busy, is_overconstrained, insecure.
  repeat case_bool_decide; simpl; try reflexivity; exfalso; tauto.
Qed.


(** ** Acquisition outcomes *)

(** C2. For a non-empty strategy list whose attempts are all rejected,
    acquisition fails with the message, and so the kind, that the catch block
    picks for the last rejection and the page location; no earlier rejection
    enters the result, and every strategy was tried once, in order. With the
    three built-in strategies all refused for lack of permission, the outcome
    is [Failed PermissionDenied]. *)
Theorem acquire_all_rejected_classifies_last env gum cs errs st :
  capability (navigator env) = Some gum ->
  cs <> [] ->
  rejects gum (length (gumCalls st)) cs errs ->
  exists e_last k,
    last errs = Some e_last
    /\ acquire_with cs env st =
         (ErrorMessage (error_message e_last (location env)),
          setGumCalls (gumCalls st ++ cs) st)
    /\ kind_of_message (error_message e_last (location env)) = Some k
    /\ outcome_of (acquire_with cs env st).1 = Some (Failed k)
    /\ error (startCamera_with cs env st) = Some (error_message e_last (location env))
    /\ (cs = strategies -> Forall is_denied errs ->
        outcome_of (acquire env st).1 = Some (Failed PermissionDenied)).
Proof.
  intros Hcap Hne Hrej.
  assert (exists e_last, last errs = Some e_last) as [e_last Hlast].
  { destruct (last errs) as [e|] eqn:E; [eauto|].
    apply last_None in E. subst errs.
    apply rejects_length in Hrej. destruct cs; [contradiction|discriminate]. }
  assert (acquire_with cs env st =
            (ErrorMessage (error_message e_last (location env)),
             setGumCalls (gumCalls st ++ cs) st)) as Hacq.
  { unfold acquire_with. rewrite Hcap.
    rewrite (try_strategies_rejected gum cs errs None st Hrej).
    rewrite Hlast. reflexivity. }
  pose proof (kind_of_error_message e_last (location env)) as Hk.
  eexists e_last, _. split; [exact Hlast|]. split; [exact Hacq|].
  split; [exact Hk|]. split; [|split].
  - rewrite Hacq. simpl. rewrite Hk. reflexivity.
  - unfold startCamera_with.
    rewrite (surjective_pairing (acquire_with cs env _)).
    rewrite (acquire_with_result cs env _ st) by reflexivity.
    rewrite Hacq. reflexivity.
  - intros -> Hden. unfold acquire. rewrite Hacq. simpl. rewrite Hk.
    assert (is_denied e_last) as Hd.
    { rewrite Forall_forall in Hden. apply Hden.
      apply last_Some in Hlast as [l' ->]. set_solver. }
    rewrite bool_decide_eq_true_2 by exact Hd. reflexivity.
Qed.

Lemma acquire_all_rejected_classifies_last_witness :
  acquire_with strategies (Samples.env_of Samples.gum_denied Samples.http_page) Samples.st0 =
    (ErrorMessage msg_denied, setGumCalls strategies Samples.st0)
  /\ error (startCamera (Samples.env_of Samples.gum_denied Samples.http_page) Samples.st0) =
       Some msg_denied
  /\ outcome_of (acquire (Samples.env_of Samples.gum_denied Samples.http_page) Samples.st0).1 =
       Some (Failed PermissionDenied).
Proof.
  destruct (acquire_all_rejected_classifies_last
              (Samples.env_of Samples.gum_denied Samples.http_page)
              Samples.gum_denied strategies
              [Samples.denied; Samples.denied; Samples.denied] Samples.st0)
    as (e_last & k & Hlast & Hacq & _ & _ & Herr & Hden).
  - reflexivity.
  - discriminate.
  - simpl. repeat split; reflexivity.
  - injection Hlast as <-. split; [exact Hacq|]. split; [exact Herr|].
    apply Hden; [reflexivity|].
    repeat constructor; left; reflexivity.
Defined.

(** C3. When the strategies before some strategy are rejected and that one
    resolves, acquisition yields [Active] for the resolved stream and the calls
    issued are exactly the strategies up to and including it: none of the
    later ones is attempted. On a mounted component the stream is the one
    attached, with no error. *)
Theorem acquire_stops_at_first_success env gum pre c post errs s st :
  capability (navigator env) = Some gum ->
  rejects gum (length (gumCalls st)) pre errs ->
  gum (length (gumCalls st) + length pre) c = Resolved s ->
  outcome_of (acquire_with (pre ++ c :: post) env st).1 = Some (Active s)
  /\ gumCalls (acquire_with (pre ++ c :: post) env st).2 = (gumCalls st ++ pre ++ [c])%list
  /\ gumCalls (startCamera_with (pre ++ c :: post) env st) = (gumCalls st ++ pre ++ [c])%list
  /\ (is_Some (videoRef st) ->
      attached (startCamera_with (pre ++ c :: post) env st) = Some s
      /\ error (startCamera_with (pre ++ c :: post) env st) = None).
Proof.
  intros Hcap Hrej Hc.
  assert (forall st', gumCalls st' = gumCalls st ->
            acquire_with (pre ++ c :: post) env st' =
              (Stream s,
               setLiveTracks (liveTracks st' ∪ list_to_set (getTracks s))
                 (setGumCalls (gumCalls st' ++ pre ++ [c]) st'))) as Hacq.
  { intros st' E. unfold acquire_with. rewrite Hcap.
    rewrite (try_strategies_first_success gum pre errs c post s None st');
      rewrite ?E; auto. }
  split; [|split; [|split]].
  - rewrite Hacq by reflexivity. reflexivity.
  - rewrite Hacq by reflexivity. reflexivity.
  - unfold startCamera_with. rewrite Hacq by reflexivity.
    unfold attach_stream. destruct (videoRef _) as [v|].
    + reflexivity.
    + rewrite stopTracks_shape. reflexivity.
  - intros [v Hv]. unfold startCamera_with. rewrite Hacq by reflexivity.
    unfold attach_stream. simpl. rewrite Hv. split; reflexivity.
Qed.

Lemma acquire_stops_at_first_success_witness :
  outcome_of (acquire (Samples.env_of Samples.gum_front_only Samples.https_page)
                Samples.st0).1 = Some (Active Samples.front)
  /\ gumCalls (startCamera (Samples.env_of Samples.gum_front_only Samples.https_page)
                 Samples.st0) =
       [mkConstraints (facingMode "environment") false; mkConstraints (facingMode "user") false]
  /\ attached (startCamera (Samples.env_of Samples.gum_front_only Samples.https_page)
                 Samples.st0) = Some Samples.front
  /\ error (startCamera (Samples.env_of Samples.gum_front_only Samples.https_page)
               Samples.st0) = None.
Proof.
  destruct (acquire_stops_at_first_success
              (Samples.env_of Samples.gum_front_only Samples.https_page)
              Samples.gum_front_only
              [mkConstraints (facingMode "environment") false]
              (mkConstraints (facingMode "user") false)
              [mkConstraints anyVideo false]
              [mkError "OverconstrainedError" ""] Samples.front Samples.st0)
    as (Hout & _ & Hcalls & Hatt).
  - reflexivity.
  - simpl. split; [reflexivity|exact I].
  - reflexivity.
  - split; [exact Hout|]. split; [exact Hcalls|]. apply Hatt. eexists. reflexivity.
Defined.

(** C4. When the capability check fails, acquisition is [Failed Unsupported]
    at once: the unsupported message is displayed, no [getUserMedia] call is
    issued and no track is opened. *)
Theorem unsupported_attempts_nothing cs env st :
  capability (navigator env) = None ->
  acquire_with cs env st = (ErrorMessage msg_unsupported, st)
  /\ outcome_of (acquire_with cs env st).1 = Some (Failed Unsupported)
  /\ startCamera_with cs env st =
       setError (Some msg_unsupported) (setIsStreaming false st)
  /\ gumCalls (startCamera_with cs env st) = gumCalls st
  /\ liveTracks (startCamera_with cs env st) = liveTracks st.
Proof.
  intros Hcap.
  assert (forall st', acquire_with cs env st' = (ErrorMessage msg_unsupported, st')) as Hacq.
  { intros st'. unfold acquire_with. rewrite Hcap. reflexivity. }
  unfold startCamera_with. rewrite !Hacq. repeat split; reflexivity.
Qed.

Lemma unsupported_attempts_nothing_witness :
  acquire_with strategies Samples.env_no_api Samples.st0 =
    (ErrorMessage msg_unsupported, Samples.st0)
  /\ outcome_of (acquire_with strategies Samples.env_no_api Samples.st0).1 =
       Some (Failed Unsupported)
  /\ startCamera_with strategies Samples.env_no_api Samples.st0 =
       setError (Some msg_unsupported) (setIsStreaming false Samples.st0)
  /\ gumCalls (startCamera_with strategies Samples.env_no_api Samples.st0) =
       gumCalls Samples.st0
  /\ liveTracks (startCamera_with strategies Samples.env_no_api Samples.st0) =
       liveTracks Samples.st0.
Proof.
  apply (unsupported_attempts_nothing strategies Samples.env_no_api Samples.st0).
  reflexivity.
Defined.

(** C5. The catch block tests the error in the order permission denied, no
    device, device busy, constraints unsatisfiable; the insecure-context kind,
    which is read off the page location and not off the error, comes out
    exactly when none of the four matched and the page is neither https nor
    localhost; and the unknown kind exactly when none matched and the page is
    not insecure. *)
Theorem classification_priority e loc :
  let k := kind_of_message (error_message e loc) in
  (is_denied e -> k = Some PermissionDenied)
  /\ (~ is_denied e -> is_not_found e -> k = Some DeviceNotFound)
  /\ (~ is_denied e -> ~ is_not_found e -> is_busy e -> k = Some DeviceBusy)
  /\ (~ is_denied e -> ~ is_not_found e -> ~ is_busy e -> is_overconstrained e ->
      k = Some ConstraintsUnsatisfiable)
  /\ (k = Some InsecureContext <->
      ~ is_denied e /\ ~ is_not_found e /\ ~ is_busy e /\ ~ is_overconstrained e
      /\ insecure loc)
  /\ (k = Some Unknown <->
      ~ is_denied e /\ ~ is_not_found e /\ ~ is_busy e /\ ~ is_overconstrained e
      /\ ~ insecure loc).
Proof.
  intros k. subst k. rewrite kind_of_error_message.
  repeat case_bool_decide; repeat split; intros;
    try tauto; try congruence; try (exfalso; tauto);
    match goal with H : insecure _ |- _ => destruct H; assumption end.
Qed.

Lemma classification_priority_witness :
  kind_of_message (error_message Samples.denied Samples.http_page) = Some PermissionDenied
  /\ kind_of_message (error_message Samples.busy Samples.http_page) = Some DeviceBusy
  /\ kind_of_message (error_message Samples.aborted Samples.http_page) = Some InsecureContext
  /\ kind_of_message (error_message Samples.aborted Samples.https_page) = Some Unknown.
Proof.
  split; [|split; [|split]].
  - apply (classification_priority Samples.denied Samples.http_page).
    left. reflexivity.
  - apply (classification_priority Samples.busy Samples.http_page).
    + intros [H|H]; discriminate H.
    + intros [H|H]; discriminate H.
    + left. reflexivity.
  - apply (classification_priority Samples.aborted Samples.http_page).
    repeat split; try (intros [H|H]; discriminate H); try discriminate.
  - apply (classification_priority Samples.aborted Samples.https_page).
    repeat split; try (intros [H|H]; discriminate H); try discriminate.
    intros [H _]. apply H. reflexivity.
Defined.

(** C8 fails as stated: with no strategy to try, the error thrown at line 63
    is a plain [Error], which matches none of the four names, so on a page
    that is neither https nor localhost the insecure-context message is
    chosen. *)
Lemma empty_list_insecure_page :
  capability (navigator (Samples.env_of Samples.gum_denied Samples.http_page)) =
    Some Samples.gum_denied
  /\ outcome_of (acquire_with [] (Samples.env_of Samples.gum_denied Samples.http_page)
                   Samples.st0).1 = Some (Failed InsecureContext)
  /\ outcome_of (acquire_with [] (Samples.env_of Samples.gum_denied Samples.http_page)
                   Samples.st0).1 <> Some (Failed Unknown).
Proof. split; [reflexivity|]. split; [reflexivity|]. discriminate. Qed.

(** C8, amended. For the empty strategy list, once the capability check has
    passed, acquisition attempts nothing and is [Failed Unknown] when the page
    is served over https or from localhost, and [Failed InsecureContext]
    otherwise. *)
Theorem empty_list_outcome env gum st :
  capability (navigator env) = Some gum ->
  (acquire_with [] env st).2 = st
  /\ (~ insecure (location env) ->
      outcome_of (acquire_with [] env st).1 = Some (Failed Unknown))
  /\ (insecure (location env) ->
      outcome_of (acquire_with [] env st).1 = Some (Failed InsecureContext)).
Proof.
  intros Hcap. unfold acquire_with. rewrite Hcap. simpl.
  split; [reflexivity|].
  rewrite kind_of_error_message.
  rewrite (bool_decide_eq_false_2 (is_denied _)) by (intros [H|H]; discriminate H).
  rewrite (bool_decide_eq_false_2 (is_not_found _)) by (intros [H|H]; discriminate H).
  rewrite (bool_decide_eq_false_2 (is_busy _)) by (intros [H|H]; discriminate H).
  rewrite (bool_decide_eq_false_2 (is_overconstrained _)) by (intros H; discriminate H).
  split; intros H.
  - rewrite bool_decide_eq_false_2 by exact H. reflexivity.
  - rewrite bool_decide_eq_true_2 by exact H. reflexivity.
Qed.

Lemma empty_list_outcome_witness :
  (acquire_with [] (Samples.env_of Samples.gum_denied Samples.https_page) Samples.st0).2 =
    Samples.st0
  /\ outcome_of (acquire_with [] (Samples.env_of Samples.gum_denied Samples.https_page)
                   Samples.st0).1 = Some (Failed Unknown).
Proof.
  destruct (empty_list_outcome (Samples.env_of Samples.gum_denied Samples.https_page)
              Samples.gum_denied Samples.st0 eq_refl) as (H1 & H2 & _).
  split; [exact H1|]. apply H2.
  intros [H _]. apply H. reflexivity.
Defined.

(** ** Releasing *)

Lemma stopCamera_frame st :
  analyzing (stopCamera st) = analyzing st /\ error (stopCamera st) = error st
  /\ canvasRef (stopCamera st) = canvasRef st /\ gumCalls (stopCamera st) = gumCalls st.
Proof.
  unfold stopCamera. destruct (videoRef st) as [v|]; [|auto].
  destruct (srcObject v) as [s|]; [|auto].
  rewrite stopTracks_shape. simpl. auto.
Qed.

Lemma stopCamera_attached st : attached (stopCamera st) = None.
Proof.
  unfold stopCamera, attached. destruct (videoRef st) as [v|] eqn:Ev.
  - destruct (srcObject v) as [s|] eqn:Es.
    + reflexivity.
    + rewrite Ev. exact Es.
  - rewrite Ev. reflexivity.
Qed.

Lemma stopCamera_not_attached st : attached st = None -> stopCamera st = st.
Proof.
  unfold stopCamera, attached. destruct (videoRef st) as [v|]; [|reflexivity].
  intros ->. reflexivity.
Qed.



Lemma stream_live_false s st :
  (forall t, t ∈ getTracks s -> t ∉ liveTracks st) -> stream_live s st = false.
Proof.
  intros H. unfold stream_live. apply not_true_is_false. intros E.
  apply existsb_exists in E as (t & Ht & Hl).
  apply bool_decide_eq_true_1 in Hl. apply (H t); [|exact Hl].
  apply list_elem_of_In. exact Ht.
Qed.

(** ** Capturing *)

Lemma captureAndAnalyze_frame cap st :
  videoRef (captureAndAnalyze cap st) = videoRef st
  /\ isStreaming (captureAndAnalyze cap st) = isStreaming st
  /\ liveTracks (captureAndAnalyze cap st) = liveTracks st
  /\ gumCalls (captureAndAnalyze cap st) = gumCalls st
  /\ timerArmed (captureAndAnalyze cap st) = timerArmed st.
Proof.
  unfold captureAndAnalyze, capture_begin.
  destruct (videoRef st) as [v|] eqn:Ev; [|rewrite Ev; auto].
  destruct (canvasRef st) as [c|]; [|rewrite Ev; auto].
  destruct (getContext2d c); [|simpl; auto].
  unfold capture_settle. destruct (response cap) as [text|[e|]]; simpl; auto.
Qed.

(** ** The streaming flag implies an attached stream *)





Lemma run_reachable env evs : forall st st1,
  reachable env st -> run env evs st = Some st1 -> reachable env st1.
Proof.
  induction evs as [|ev evs IH]; intros st st1 Hr Hrun; simpl in Hrun.
  - injection Hrun as <-. exact Hr.
  - destruct (step env ev st) as [st2|] eqn:E; [|discriminate].
    apply (IH st2); [|exact Hrun]. exact (reach_step env ev st st2 Hr E).
Qed.



(** ** Single ownership *)

(** The loop adds the tracks of the stream it returns and nothing else. *)
Lemma try_strategies_live gum cs : forall lastError st,
  liveTracks (try_strategies gum cs lastError st).2 =
    match (try_strategies gum cs lastError st).1.1 with
    | Some s => liveTracks st ∪ list_to_set (getTracks s)
    | None => liveTracks st
    end.
Proof.
  induction cs as [|c cs IH]; intros lastError st; simpl.
  - reflexivity.
  - unfold call_getUserMedia. destruct (gum (length (gumCalls st)) c) as [s|e].
    + reflexivity.
    + rewrite IH. reflexivity.
Qed.






(** ** Playback confirmation *)




(** ** Capture and analysis *)



(** Once the analyzing flag is up, no event brings it down: the capture
    button is disabled and nothing else writes the flag. *)
Lemma step_keeps_analyzing env ev st st1 :
  analyzing st = true -> step env ev st = Some st1 -> analyzing st1 = true.
Proof.
  intros Ha Hstep. destruct ev as [|v| |play|cap|]; simpl in Hstep.
  - destruct (timerArmed st); [|discriminate]. injection Hstep as <-.
    rewrite startCamera_analyzing. exact Ha.
  - injection Hstep as <-. unfold handleVisibilityChange.
    destruct (bool_decide (v = "visible")); [|exact Ha].
    destruct (_ && _); [|exact Ha].
    rewrite startCamera_analyzing. exact Ha.
  - destruct (truthy (error st)); [|discriminate]. injection Hstep as <-.
    rewrite startCamera_analyzing. exact Ha.
  - destruct (videoRef st) as [v|] eqn:Ev; [|discriminate].
    destruct (_ && _); [|discriminate]. injection Hstep as <-.
    unfold on_loadedmetadata. rewrite Ev. destruct play; exact Ha.
  - unfold capture_disabled in Hstep. rewrite Ha, orb_true_r in Hstep. discriminate.
  - injection Hstep as <-. unfold effect_setup, effect_cleanup. simpl.
    destruct (stopCamera_frame (setTimerArmed false st)) as (E & _).
    rewrite E. exact Ha.
Qed.

Lemma run_keeps_analyzing env evs : forall st st1,
  analyzing st = true -> run env evs st = Some st1 -> analyzing st1 = true.
Proof.
  induction evs as [|ev evs IH]; intros st st1 Ha Hrun; simpl in Hrun.
  - injection Hrun as <-. exact Ha.
  - destruct (step env ev st) as [st2|] eqn:E; [|discriminate].
    apply (IH st2); [|exact Hrun]. exact (step_keeps_analyzing env ev st st2 Ha E).
Qed.

(** C10. With both elements mounted, [captureAndAnalyze] raises the analyzing
    flag on entry, and the flag is down on completion exactly when the canvas
    yields a 2d context, whatever the analysis answers. Without a context the
    flag stays up, the capture button is disabled, and after any further
    events it still is. *)
Theorem analyzing_reset_iff_context cap st v c :
  videoRef st = Some v ->
  canvasRef st = Some c ->
  analyzing (capture_begin st).1 = true
  /\ (analyzing (captureAndAnalyze cap st) = false <-> getContext2d c = true)
  /\ (getContext2d c = false ->
      analyzing (captureAndAnalyze cap st) = true
      /\ capture_disabled (captureAndAnalyze cap st) = true
      /\ forall env evs st2,
           run env evs (captureAndAnalyze cap st) = Some st2 ->
           analyzing st2 = true /\ capture_disabled st2 = true).
Proof.
  intros Hv Hc.
  assert (getContext2d c = false -> analyzing (captureAndAnalyze cap st) = true) as Hstuck.
  { intros H. unfold captureAndAnalyze, capture_begin. rewrite Hv, Hc, H. reflexivity. }
  split; [|split].
  - unfold capture_begin. rewrite Hv, Hc. destruct (getContext2d c); reflexivity.
  - destruct (getContext2d c) eqn:H2d.
    + split; [reflexivity|]. intros _.
      unfold captureAndAnalyze, capture_begin. rewrite Hv, Hc, H2d. reflexivity.
    + rewrite (Hstuck eq_refl). split; discriminate.
  - intros H. specialize (Hstuck H). split; [exact Hstuck|]. split.
    + unfold capture_disabled. rewrite Hstuck. apply orb_true_r.
    + intros env evs st2 Hrun.
      pose proof (run_keeps_analyzing env evs _ st2 Hstuck Hrun) as Ha.
      split; [exact Ha|]. unfold capture_disabled. rewrite Ha. apply orb_true_r.
Qed.

Lemma analyzing_reset_iff_context_witness :
  analyzing (capture_begin Samples.st_no2d).1 = true
  /\ analyzing (captureAndAnalyze Samples.cap_ok Samples.st_no2d) = true
  /\ capture_disabled (captureAndAnalyze Samples.cap_ok Samples.st_no2d) = true
  /\ (analyzing (captureAndAnalyze Samples.cap_ok Samples.st0) = false <-> true = true).
Proof.
  destruct (analyzing_reset_iff_context Samples.cap_ok Samples.st_no2d
              (mkVideo None false 640 480) (mkCanvas false 300 150) eq_refl eq_refl)
    as (Hentry & _ & Hstuck).
  destruct (Hstuck eq_refl) as (Hup & Hdis & _).
  destruct (analyzing_reset_iff_context Samples.cap_ok Samples.st0
              (mkVideo None false 640 480) (mkCanvas true 300 150) eq_refl eq_refl)
    as (_ & Hiff & _).
  split; [exact Hentry|]. split; [exact Hup|]. split; [exact Hdis|exact Hiff].
Defined.

(** ** Sample runs *)

Example last_rejection_wins :
  error (startCamera (Samples.env_of Samples.gum_busy_then_denied Samples.https_page)
           Samples.st0) = Some msg_denied.
Proof. reflexivity. Qed.

Example unmatched_error_on_http_page :
  error (startCamera
           (Samples.env_of (fun _ _ => Rejected Samples.aborted) Samples.http_page)
           Samples.st0) = Some msg_insecure.
Proof. reflexivity. Qed.

Example unmatched_error_on_https_page :
  error (startCamera
           (Samples.env_of (fun _ _ => Rejected Samples.aborted) Samples.https_page)
           Samples.st0) = Some msg_unable.
Proof. reflexivity. Qed.

Example streaming_after_play :
  isStreaming Samples.st_streaming = true
  /\ attached Samples.st_streaming = Some Samples.rear
  /\ stream_live Samples.rear Samples.st_streaming = true
  /\ length (gumCalls Samples.st_streaming) = 1.
Proof. repeat split; vm_compute; reflexivity. Qed.

Example capture_reports_result :
  reported (captureAndAnalyze Samples.cap_ok Samples.st_streaming) =
    [mkResult "uuid-1" "2024-01-01T00:00:00.000Z" "data:image/jpeg;base64,AAAA" "a desk"]
  /\ analyzing (captureAndAnalyze Samples.cap_ok Samples.st_streaming) = false
  /\ error (captureAndAnalyze Samples.cap_ok Samples.st_streaming) = None.
Proof. repeat split; reflexivity. Qed.

(** When the video element is gone the opened stream is stopped at once. *)
Example unmounted_stream_is_stopped :
  let st := startCamera Samples.env_two_cameras (setVideoRef None Samples.st0) in
  attached st = None /\ stream_live Samples.rear st = false /\ error st = None.
Proof. repeat split; vm_compute; reflexivity. Qed.

(** The effect depends on [error] (line 136): the render that follows a failed
    analysis re-runs it, and its cleanup releases the camera and re-arms the
    timer. This is the effect's doing, outside [captureAndAnalyze]. *)
Example effect_rerun_after_failed_analysis :
  exists st,
    run Samples.env_two_cameras [EvCaptureClick Samples.cap_fail; EvEffectRerun]
        Samples.st_streaming = Some st
    /\ error st = Some "Quota exceeded"
    /\ attached st = None
    /\ stream_live Samples.rear st = false
    /\ timerArmed st = true.
Proof. eexists. split; [reflexivity|]. repeat split; vm_compute; reflexivity. Qed.

(** * Further properties of the handlers *)

(** ** stopTracks and stopCamera *)

(** X1. [stopTracks] (lines 18-22) stops the tracks of the given stream and no
    other: the live tracks afterwards are the former ones minus the stream's,
    nothing else in the state changes, a second call changes nothing, and a
    null stream is left alone. *)
Theorem stopTracks_exact s st :
  stopTracks (Some s) st = setLiveTracks (liveTracks st ∖ list_to_set (getTracks s)) st
  /\ (forall t, t ∈ liveTracks (stopTracks (Some s) st) <->
                t ∈ liveTracks st /\ t ∉ getTracks s)
  /\ stopTracks (Some s) (stopTracks (Some s) st) = stopTracks (Some s) st
  /\ stopTracks None st = st.
Proof.
  split; [apply stopTracks_shape|]. split; [|split; [|reflexivity]].
  - intros t. rewrite stopTracks_shape. simpl. set_solver.
  - rewrite !stopTracks_shape. unfold setLiveTracks. simpl. f_equal. set_solver.
Qed.

(** X2. [stopCamera] (lines 104-111) stops the attached stream and nothing else:
    a live track that the attached stream does not hold is still live
    afterwards. With the video element gone, or with nothing attached, it
    does nothing at all, whatever is live. *)
Theorem stopCamera_releases_only_attached st :
  (forall t, orphan t st -> t ∈ liveTracks (stopCamera st))
  /\ (forall s t, attached st = Some s ->
        (t ∈ liveTracks (stopCamera st) <-> t ∈ liveTracks st /\ t ∉ getTracks s))
  /\ (videoRef st = None -> stopCamera st = st)
  /\ (attached st = None -> stopCamera st = st).
Proof.
  split; [|split; [|split]].
  - intros t [Hl Hn]. unfold stopCamera. unfold attached in Hn.
    destruct (videoRef st) as [v|]; [|exact Hl].
    destruct (srcObject v) as [s|]; [|exact Hl].
    rewrite stopTracks_shape. simpl. specialize (Hn s eq_refl). set_solver.
  - intros s t Ha. unfold stopCamera. unfold attached in Ha.
    destruct (videoRef st) as [v|]; [|discriminate]. rewrite Ha.
    rewrite stopTracks_shape. simpl. set_solver.
  - intros Hv. unfold stopCamera. rewrite Hv. reflexivity.
  - apply stopCamera_not_attached.
Qed.

Lemma stopCamera_releases_only_attached_witness :
  (1 ∈ liveTracks (stopCamera Scenes.st_replaced))
  /\ (2 ∉ liveTracks (stopCamera Scenes.st_replaced))
  /\ stopCamera Scenes.st_detached = Scenes.st_detached.
Proof.
  destruct (stopCamera_releases_only_attached Scenes.st_replaced) as (H1 & H2 & _).
  destruct (stopCamera_releases_only_attached Scenes.st_detached) as (_ & _ & H3 & _).
  split; [|split].
  - apply H1. split.
    + apply (bool_decide_unpack _). vm_compute. exact I.
    + intros s Hs. injection Hs as <-. apply (bool_decide_unpack _). vm_compute. exact I.
  - intros Hin. apply (H2 Samples.front 2 eq_refl) in Hin as [_ Hn].
    apply Hn. apply (bool_decide_unpack _). vm_compute. exact I.
  - apply H3. reflexivity.
Defined.

(** ** The strategy loop, read backwards *)

(** What the loop returned tells what the platform answered: a stream means
    the strategies before some strategy were rejected and that one resolved
    with it; no stream means every strategy was rejected. *)
Lemma try_strategies_sound gum cs : forall lastError st,
  match (try_strategies gum cs lastError st).1.1 with
  | Some s =>
      exists pre c post errs,
        cs = (pre ++ c :: post)%list
        /\ rejects gum (length (gumCalls st)) pre errs
        /\ gum (length (gumCalls st) + length pre) c = Resolved s
  | None => exists errs, rejects gum (length (gumCalls st)) cs errs
  end.
Proof.
  induction cs as [|c cs IH]; intros lastError st; simpl.
  - exists []. exact I.
  - unfold call_getUserMedia.
    destruct (gum (length (gumCalls st)) c) as [s|e] eqn:Ec.
    + simpl. exists [], c, cs, []. simpl. rewrite Nat.add_0_r. auto.
    + specialize (IH (Some e) (setGumCalls (gumCalls st ++ [c]) st)).
      assert (length (gumCalls (setGumCalls (gumCalls st ++ [c]) st)) =
                S (length (gumCalls st))) as El.
      { simpl. rewrite length_app. simpl. lia. }
      rewrite El in IH.
      destruct ((try_strategies gum cs (Some e) _).1.1) as [s|].
      * destruct IH as (pre & c1 & post & errs & -> & Hrej & Hres).
        exists (c :: pre), c1, post, (e :: errs). simpl. split; [reflexivity|].
        split; [auto|]. rewrite <- Hres. f_equal. lia.
      * destruct IH as (errs & Hrej). exists (e :: errs). simpl. auto.
Qed.

(** X3. The [getUserMedia] calls of one [startCamera] are an initial segment
    of the strategy list, in its order: no strategy is tried twice, skipped or
    tried out of turn. With the API present and a non-empty list, at least the
    first strategy is tried. *)
Theorem startCamera_calls_are_a_prefix cs env st :
  exists k,
    k <= length cs
    /\ gumCalls (startCamera_with cs env st) = (gumCalls st ++ take k cs)%list
    /\ (is_Some (capability (navigator env)) -> cs <> [] -> 1 <= k).
Proof.
  unfold startCamera_with, acquire_with.
  destruct (capability (navigator env)) as [gum|].
  - set (st0 := setError None (setIsStreaming false st)).
    pose proof (try_strategies_sound gum cs None st0) as Hs.
    destruct ((try_strategies gum cs None st0).1.1) as [s|] eqn:E.
    + destruct Hs as (pre & c & post & errs & -> & Hrej & Hres).
      rewrite (try_strategies_first_success gum pre errs c post s None st0 Hrej Hres).
      exists (S (length pre)). split; [rewrite length_app; simpl; lia|]. split.
      * assert (take (S (length pre)) (pre ++ c :: post) = (pre ++ [c])%list) as ->.
        { rewrite take_app_ge by lia.
          replace (S (length pre) - length pre) with 1 by lia. reflexivity. }
        unfold attach_stream. destruct (videoRef _) as [v|].
        -- reflexivity.
        -- rewrite stopTracks_shape. reflexivity.
      * intros _ _. lia.
    + destruct Hs as (errs & Hrej).
      rewrite (try_strategies_rejected gum cs errs None st0 Hrej).
      exists (length cs). split; [lia|]. split.
      * rewrite firstn_all. reflexivity.
      * intros _ Hne. destruct cs; [contradiction|simpl; lia].
  - exists 0. split; [lia|]. split.
    + simpl. rewrite take_0, app_nil_r. reflexivity.
    + intros [gum H]. discriminate.
Qed.

Lemma startCamera_calls_are_a_prefix_witness :
  gumCalls (startCamera (Samples.env_of Samples.gum_front_only Samples.https_page)
              Samples.st0) = take 2 strategies
  /\ exists k, 1 <= k <= 3
       /\ gumCalls (startCamera Samples.env_two_cameras Samples.st0) = take k strategies.
Proof.
  split; [reflexivity|].
  destruct (startCamera_calls_are_a_prefix strategies Samples.env_two_cameras Samples.st0)
    as (k & Hk & Hcalls & Hpos).
  exists k. split; [|exact Hcalls]. split; [|exact Hk].
  apply Hpos; [eexists; reflexivity|discriminate].
Defined.

(** X4. The outcome of the acquisition tells what the platform answered: an
    error message other than the unsupported one means every strategy was
    rejected (or there was none to try), and a stream means it is the answer
    to the first strategy that was not rejected. *)
Theorem acquire_outcome_sound cs env gum st :
  capability (navigator env) = Some gum ->
  (forall msg, (acquire_with cs env st).1 = ErrorMessage msg ->
     exists errs, rejects gum (length (gumCalls st)) cs errs
       /\ msg = error_message
                  (default (new_Error "No camera devices found.") (last errs))
                  (location env))
  /\ (forall s, (acquire_with cs env st).1 = Stream s ->
        exists pre c post errs,
          cs = (pre ++ c :: post)%list
          /\ rejects gum (length (gumCalls st)) pre errs
          /\ gum (length (gumCalls st) + length pre) c = Resolved s).
Proof.
  intros Hcap. unfold acquire_with. rewrite Hcap.
  pose proof (try_strategies_sound gum cs None st) as Hs.
  destruct ((try_strategies gum cs None st).1.1) as [s|] eqn:E.
  - destruct (try_strategies gum cs None st) as [[o le] st1]. simpl in E. subst o.
    split; [intros msg H; discriminate H|].
    intros s' H. injection H as <-. exact Hs.
  - destruct Hs as (errs & Hrej).
    rewrite (try_strategies_rejected gum cs errs None st Hrej). simpl.
    split; [|intros s H; discriminate H].
    intros msg H. injection H as <-. exists errs. split; [exact Hrej|].
    destruct (last errs); reflexivity.
Qed.

Lemma acquire_outcome_sound_witness :
  exists errs,
    rejects Samples.gum_busy_then_denied 0 strategies errs
    /\ msg_denied =
         error_message (default (new_Error "No camera devices found.") (last errs))
                       Samples.https_page.
Proof.
  destruct (acquire_outcome_sound strategies
              (Samples.env_of Samples.gum_busy_then_denied Samples.https_page)
              Samples.gum_busy_then_denied Samples.st0 eq_refl) as [H _].
  apply (H msg_denied). reflexivity.
Defined.

(** ** What a failed acquisition shows and touches *)

Lemma truthy_error_message e loc : truthy (Some (error_message e loc)) = true.
Proof.
  unfold error_message.
  repeat (match goal with |- context [if ?b then _ else _] => destruct b end);
    reflexivity.
Qed.

(** X5. The unsupported kind is reported exactly when the capability check of
    line 29 fails; the catch block never produces it. *)
Theorem unsupported_iff_no_capability cs env st :
  outcome_of (acquire_with cs env st).1 = Some (Failed Unsupported)
  <-> capability (navigator env) = None.
Proof.
  unfold acquire_with. destruct (capability (navigator env)) as [gum|].
  - split; [|discriminate]. intros H. exfalso.
    destruct (try_strategies gum cs None st) as [[[s|] le] st1]; simpl in H.
    + discriminate.
    + rewrite kind_of_error_message in H. simpl in H.
      repeat (destruct (bool_decide _) in H); discriminate.
  - split; reflexivity.
Qed.

(** X6. The catch block reads nothing of the error but its name: two errors of the
    same name get the same message on the same page, whatever their own
    message says, and the message shown is one of six fixed texts. *)
Theorem error_message_reads_name_only e1 e2 loc :
  name e1 = name e2 ->
  error_message e1 loc = error_message e2 loc
  /\ error_message e1 loc ∈
       [msg_denied; msg_not_found; msg_in_use; msg_overconstrained; msg_insecure; msg_unable].
Proof.
  intros Hn. split.
  - unfold error_message. rewrite Hn. reflexivity.
  - unfold error_message.
    repeat (match goal with |- context [if ?b then _ else _] => destruct b end);
      set_solver.
Qed.

Lemma error_message_reads_name_only_witness :
  error_message Samples.denied Samples.http_page =
    error_message (mkError "NotAllowedError" "The request is not allowed") Samples.http_page
  /\ error_message Samples.denied Samples.http_page ∈
       [msg_denied; msg_not_found; msg_in_use; msg_overconstrained; msg_insecure; msg_unable].
Proof.
  apply (error_message_reads_name_only Samples.denied
           (mkError "NotAllowedError" "The request is not allowed") Samples.http_page).
  reflexivity.
Defined.

(** X7. When the acquisition fails, [startCamera] shows the message and touches
    neither the video element nor any track: a stream attached before is still
    attached and as live as it was, while the streaming flag is lowered. The
    message is never empty, so the error overlay and its retry button are
    rendered, and the spinner is not. *)
Theorem failed_startCamera_keeps_video cs env st msg :
  (acquire_with cs env st).1 = ErrorMessage msg ->
  let st1 := startCamera_with cs env st in
  error st1 = Some msg
  /\ videoRef st1 = videoRef st
  /\ liveTracks st1 = liveTracks st
  /\ isStreaming st1 = false
  /\ error_shown st1 = true
  /\ loading_shown st1 = false
  /\ is_Some (step env EvRetryClick st1).
Proof.
  intros Hacq st1.
  assert (truthy (Some msg) = true) as Ht.
  { revert Hacq. unfold acquire_with.
    destruct (capability (navigator env)) as [gum|].
    - destruct (try_strategies gum cs None st) as [[[s|] le] st2]; simpl.
      + discriminate.
      + intros H. injection H as <-. apply truthy_error_message.
    - simpl. intros H. injection H as <-. reflexivity. }
  assert (error st1 = Some msg /\ videoRef st1 = videoRef st
          /\ liveTracks st1 = liveTracks st /\ isStreaming st1 = false) as (He & Hv & Hl & Hi).
  { subst st1. unfold startCamera_with.
    rewrite <- (acquire_with_result cs env (setError None (setIsStreaming false st)) st)
      in Hacq by reflexivity.
    revert Hacq. unfold acquire_with.
    destruct (capability (navigator env)) as [gum|].
    - set (st0 := setError None (setIsStreaming false st)).
      pose proof (try_strategies_live gum cs None st0) as HL.
      pose proof (try_strategies_shape gum cs None st0) as (L & G & Hshape).
      destruct (try_strategies gum cs None st0) as [[[s|] le] st2]; simpl in *.
      + discriminate.
      + intros H. injection H as <-. subst st2. simpl in *. auto.
    - simpl. intros H. injection H as <-. auto. }
  clearbody st1.
  split; [exact He|]. split; [exact Hv|]. split; [exact Hl|]. split; [exact Hi|].
  unfold error_shown, loading_shown. simpl. rewrite He, Ht.
  split; [reflexivity|]. split; [apply andb_false_r|]. eexists. reflexivity.
Qed.

Lemma failed_startCamera_keeps_video_witness :
  let st1 := startCamera (Samples.env_of (fun _ _ => Rejected Samples.busy) Samples.https_page)
               Samples.st_streaming in
  error st1 = Some msg_in_use
  /\ videoRef st1 = videoRef Samples.st_streaming
  /\ liveTracks st1 = liveTracks Samples.st_streaming
  /\ isStreaming st1 = false
  /\ error_shown st1 = true
  /\ loading_shown st1 = false
  /\ is_Some (step (Samples.env_of (fun _ _ => Rejected Samples.busy) Samples.https_page)
                EvRetryClick st1).
Proof.
  apply (failed_startCamera_keeps_video strategies
           (Samples.env_of (fun _ _ => Rejected Samples.busy) Samples.https_page)
           Samples.st_streaming msg_in_use).
  reflexivity.
Defined.

(** X8. With the video element gone (line 79), a stream that opens is stopped on
    the spot: none of its tracks is live afterwards, nothing is attached, no
    error is set, and the tracks of other streams are as they were. *)
Theorem unmounted_startCamera_stops_stream cs env st s :
  videoRef st = None ->
  (acquire_with cs env st).1 = Stream s ->
  let st1 := startCamera_with cs env st in
  stream_live s st1 = false
  /\ liveTracks st1 = liveTracks st ∖ list_to_set (getTracks s)
  /\ attached st1 = None
  /\ error st1 = None
  /\ isStreaming st1 = false.
Proof.
  intros Hv Hacq st1.
  assert (liveTracks st1 = liveTracks st ∖ list_to_set (getTracks s)
          /\ videoRef st1 = None /\ error st1 = None /\ isStreaming st1 = false)
    as (Hl & Hv1 & He & Hi).
  { subst st1. unfold startCamera_with.
    rewrite <- (acquire_with_result cs env (setError None (setIsStreaming false st)) st)
      in Hacq by reflexivity.
    revert Hacq. unfold acquire_with.
    destruct (capability (navigator env)) as [gum|]; [|discriminate].
    set (st0 := setError None (setIsStreaming false st)).
    pose proof (try_strategies_live gum cs None st0) as HL.
    pose proof (try_strategies_shape gum cs None st0) as (L & G & Hshape).
    destruct (try_strategies gum cs None st0) as [[[s'|] le] st2]; simpl in *;
      [|discriminate].
    intros H. injection H as ->. subst st2. simpl in HL.
    unfold attach_stream.
    change (videoRef (setLiveTracks L (setGumCalls G st0))) with (videoRef st).
    rewrite Hv, stopTracks_shape. simpl.
    rewrite Hv. split; [|auto]. rewrite HL. set_solver. }
  clearbody st1. split; [|split; [exact Hl|split; [|auto]]].
  - apply stream_live_false. intros t Ht. rewrite Hl. set_solver.
  - unfold attached. rewrite Hv1. reflexivity.
Qed.

Lemma unmounted_startCamera_stops_stream_witness :
  let st1 := startCamera Samples.env_two_cameras (setVideoRef None Samples.st0) in
  stream_live Samples.rear st1 = false
  /\ liveTracks st1 = liveTracks (setVideoRef None Samples.st0) ∖ list_to_set (getTracks Samples.rear)
  /\ attached st1 = None
  /\ error st1 = None
  /\ isStreaming st1 = false.
Proof.
  apply (unmounted_startCamera_stops_stream strategies Samples.env_two_cameras
           (setVideoRef None Samples.st0) Samples.rear); reflexivity.
Defined.

(** ** Ownership through the events *)

















(** ** The timer and the metadata handler *)

Lemma step_keeps_timer_off env ev st st1 :
  timerArmed st = false -> ev <> EvEffectRerun ->
  step env ev st = Some st1 -> timerArmed st1 = false.
Proof.
  intros Ht Hev Hstep. destruct ev as [|v| |play|cap|]; simpl in Hstep.
  - rewrite Ht in Hstep. discriminate.
  - injection Hstep as <-. unfold handleVisibilityChange.
    destruct (bool_decide (v = "visible")); [|exact Ht].
    destruct (_ && _); [|exact Ht].
    destruct (startCamera_with_frame strategies env st) as (_ & _ & _ & E).
    unfold startCamera. rewrite E. exact Ht.
  - destruct (truthy (error st)); [|discriminate]. injection Hstep as <-.
    destruct (startCamera_with_frame strategies env (setError None st)) as (_ & _ & _ & E).
    unfold startCamera. rewrite E. exact Ht.
  - destruct (videoRef st) as [v|] eqn:Ev; [|discriminate].
    destruct (_ && _); [|discriminate]. injection Hstep as <-.
    unfold on_loadedmetadata. rewrite Ev. destruct play; exact Ht.
  - destruct (capture_disabled st); [discriminate|]. injection Hstep as <-.
    destruct (captureAndAnalyze_frame cap st) as (_ & _ & _ & _ & E).
    rewrite E. exact Ht.
  - contradiction.
Qed.

(** X12. The timer of line 117 starts the camera at most once for each run of the
    effect: once it has fired it cannot fire again, whatever else happens,
    until the effect is run again. *)
Theorem timer_fires_once env evs : forall st st1 st2,
  step env EvTimer st = Some st1 ->
  EvEffectRerun ∉ evs ->
  run env evs st1 = Some st2 ->
  timerArmed st2 = false /\ step env EvTimer st2 = None.
Proof.
  assert (forall evs st1 st2, timerArmed st1 = false -> EvEffectRerun ∉ evs ->
            run env evs st1 = Some st2 -> timerArmed st2 = false) as Hrun.
  { clear evs. induction evs as [|ev evs IH]; intros st1 st2 Ht Hno Hrun; simpl in Hrun.
    - injection Hrun as <-. exact Ht.
    - destruct (step env ev st1) as [st3|] eqn:E; [|discriminate].
      apply (IH st3 st2); [|set_solver|exact Hrun].
      apply (step_keeps_timer_off env ev st1 st3 Ht); [set_solver|exact E]. }
  intros st st1 st2 Hstep Hno Hr.
  assert (timerArmed st1 = false) as Ht1.
  { simpl in Hstep. destruct (timerArmed st); [|discriminate]. injection Hstep as <-.
    destruct (startCamera_with_frame strategies env (setTimerArmed false st))
      as (_ & _ & _ & E).
    unfold startCamera. rewrite E. reflexivity. }
  pose proof (Hrun evs st1 st2 Ht1 Hno Hr) as Ht2.
  split; [exact Ht2|]. simpl. rewrite Ht2. reflexivity.
Qed.

Lemma timer_fires_once_witness :
  timerArmed (captureAndAnalyze Samples.cap_ok Samples.st_streaming) = false
  /\ step Samples.env_two_cameras EvTimer
       (captureAndAnalyze Samples.cap_ok Samples.st_streaming) = None.
Proof.
  apply (timer_fires_once Samples.env_two_cameras
           [EvLoadedMetadata PlayStarted; EvCaptureClick Samples.cap_ok;
            EvVisibilityChange "visible"] Samples.st0
           (startCamera Samples.env_two_cameras (setTimerArmed false Samples.st0))
           (captureAndAnalyze Samples.cap_ok Samples.st_streaming)).
  - reflexivity.
  - intros H. repeat (apply elem_of_cons in H as [H|H]; [discriminate H|]).
    apply elem_of_nil in H. exact H.
  - vm_compute. reflexivity.
Defined.

(** The video element after [startCamera]: as before, or holding the new
    stream with the handler installed. *)
Lemma startCamera_with_videoRef cs env st :
  videoRef (startCamera_with cs env st) = videoRef st
  \/ exists s v, videoRef st = Some v
       /\ videoRef (startCamera_with cs env st) =
            Some (mkVideo (Some s) true (videoWidth v) (videoHeight v)).
Proof.
  unfold startCamera_with.
  destruct (acquire_with_shape cs env (setError None (setIsStreaming false st)))
    as (L & G & H).
  destruct (acquire_with cs env (setError None (setIsStreaming false st)))
    as [[s|msg] st1]; simpl in H; subst st1.
  - unfold attach_stream.
    change (videoRef (setLiveTracks L (setGumCalls G (setError None (setIsStreaming false st)))))
      with (videoRef st).
    destruct (videoRef st) as [v|] eqn:Ev.
    + right. exists s, v. split; reflexivity.
    + left. rewrite stopTracks_shape. simpl. exact Ev.
  - left. reflexivity.
Qed.

(** X13. In every reachable state a video element that holds a stream has the
    metadata handler installed, so the playback confirmation of line 72 can
    follow: the metadata event is enabled, and when [play()] resolves the
    streaming flag goes up. *)
Theorem attached_stream_has_handler env st :
  reachable env st ->
  forall v, videoRef st = Some v -> is_Some (srcObject v) ->
    onloadedmetadata v = true
    /\ step env (EvLoadedMetadata PlayStarted) st = Some (setIsStreaming true st).
Proof.
  intros Hr.
  assert (forall v, videoRef st = Some v -> is_Some (srcObject v) ->
            onloadedmetadata v = true) as Hinv.
  { induction Hr as [v_w v_h has2d|ev st st1 _ IH Hstep].
    - intros v Hv [s Hs]. injection Hv as <-. discriminate Hs.
    - assert (forall env0 sta, (forall v, videoRef sta = Some v -> is_Some (srcObject v) ->
                 onloadedmetadata v = true) ->
               forall v, videoRef (startCamera env0 sta) = Some v ->
                 is_Some (srcObject v) -> onloadedmetadata v = true) as Hstart.
      { intros env0 sta Hsta v Hv Hs. unfold startCamera in Hv.
        destruct (startCamera_with_videoRef strategies env0 sta) as [E|(s & v0 & _ & E)];
          rewrite E in Hv.
        - exact (Hsta v Hv Hs).
        - injection Hv as <-. reflexivity. }
      destruct ev as [|vis| |play|cap|]; simpl in Hstep.
      + destruct (timerArmed st); [|discriminate]. injection Hstep as <-.
        apply Hstart. exact IH.
      + injection Hstep as <-. unfold handleVisibilityChange.
        destruct (bool_decide (vis = "visible")); [|exact IH].
        destruct (_ && _); [|exact IH]. apply Hstart. exact IH.
      + destruct (truthy (error st)); [|discriminate]. injection Hstep as <-.
        apply Hstart. exact IH.
      + destruct (videoRef st) as [v0|] eqn:Ev; [|discriminate].
        destruct (_ && _); [|discriminate]. injection Hstep as <-.
        unfold on_loadedmetadata. rewrite Ev.
        destruct play; simpl; rewrite Ev; exact IH.
      + destruct (capture_disabled st); [discriminate|]. injection Hstep as <-.
        destruct (captureAndAnalyze_frame cap st) as (E & _). rewrite E. exact IH.
      + injection Hstep as <-. intros v Hv [s Hs]. exfalso.
        pose proof (stopCamera_attached (setTimerArmed false st)) as Ha.
        unfold effect_setup, effect_cleanup in Hv. simpl in Hv.
        unfold attached in Ha. rewrite Hv in Ha. congruence. }
  intros v Hv Hs. split; [exact (Hinv v Hv Hs)|].
  simpl. rewrite Hv, (Hinv v Hv Hs). rewrite (bool_decide_eq_true_2 _ Hs). simpl.
  unfold on_loadedmetadata. rewrite Hv. reflexivity.
Qed.

Lemma attached_stream_has_handler_witness :
  onloadedmetadata (mkVideo (Some Samples.front) true 640 480) = true
  /\ step Samples.env_two_cameras (EvLoadedMetadata PlayStarted) Scenes.st_replaced =
       Some (setIsStreaming true Scenes.st_replaced).
Proof.
  apply (attached_stream_has_handler Samples.env_two_cameras Scenes.st_replaced).
  - apply (run_reachable Samples.env_two_cameras
             [EvVisibilityChange "visible"; EvTimer] Samples.st0).
    + apply reach_mounted.
    + vm_compute. reflexivity.
  - vm_compute. reflexivity.
  - eexists. reflexivity.
Defined.

(** ** Capturing, continued *)



(** X15. While the analysis call is pending the capture button is disabled, so a
    second capture cannot be started before the first has settled; and with
    either element missing [captureAndAnalyze] returns at once, without
    raising the analyzing flag. *)
Theorem capture_is_serialized st :
  (forall v c, videoRef st = Some v -> canvasRef st = Some c ->
     capture_disabled (capture_begin st).1 = true
     /\ (forall env cap, step env (EvCaptureClick cap) (capture_begin st).1 = None)
     /\ (capture_begin st).2 = getContext2d c)
  /\ (videoRef st = None \/ canvasRef st = None ->
      forall cap, captureAndAnalyze cap st = st).
Proof.
  split.
  - intros v c Hv Hc.
    assert (analyzing (capture_begin st).1 = true) as Ha.
    { unfold capture_begin. rewrite Hv, Hc. destruct (getContext2d c); reflexivity. }
    assert (capture_disabled (capture_begin st).1 = true) as Hd.
    { unfold capture_disabled. rewrite Ha. apply orb_true_r. }
    split; [exact Hd|]. split.
    + intros env cap. simpl. rewrite Hd. reflexivity.
    + unfold capture_begin. rewrite Hv, Hc. destruct (getContext2d c); reflexivity.
  - intros H cap. unfold captureAndAnalyze, capture_begin.
    destruct H as [H|H]; rewrite H; [reflexivity|].
    destruct (videoRef st); reflexivity.
Qed.

Lemma capture_is_serialized_witness :
  capture_disabled (capture_begin Samples.st_streaming).1 = true
  /\ (forall env cap,
        step env (EvCaptureClick cap) (capture_begin Samples.st_streaming).1 = None)
  /\ (capture_begin Samples.st_streaming).2 = true
  /\ (forall cap, captureAndAnalyze cap Scenes.st_detached = Scenes.st_detached).
Proof.
  destruct (capture_is_serialized Samples.st_streaming) as [H _].
  destruct (capture_is_serialized Scenes.st_detached) as [_ H'].
  destruct (H (mkVideo (Some Samples.rear) true 640 480) (mkCanvas true 300 150)
              eq_refl eq_refl) as (H1 & H2 & H3).
  split; [exact H1|]. split; [exact H2|]. split; [exact H3|].
  apply H'. left. reflexivity.
Defined.

(** X16. A failed analysis is shown to the user exactly when the message put in
    the error cell is not empty. A value that is not an [Error] always shows
    "Analysis failed"; an [Error] with an empty message sets the cell to the
    empty string, which renders no overlay and no retry button. *)
Theorem analysis_failure_visibility cap t st v c :
  videoRef st = Some v ->
  canvasRef st = Some c ->
  getContext2d c = true ->
  response cap = Failing t ->
  let st1 := captureAndAnalyze cap st in
  (error_shown st1 = true <-> analysis_error t <> "")
  /\ (t = ThrownOther -> error_shown st1 = true)
  /\ (analysis_error t = "" ->
      error st1 = Some "" /\ error_shown st1 = false
      /\ forall env, step env EvRetryClick st1 = None).
Proof.
  intros Hv Hc H2d Hresp st1.
  assert (error st1 = Some (analysis_error t)) as He.
  { subst st1. unfold captureAndAnalyze, capture_begin. rewrite Hv, Hc, H2d.
    unfold capture_settle. rewrite Hresp. reflexivity. }
  clearbody st1. unfold error_shown. rewrite He. simpl.
  split; [|split].
  - case_bool_decide as E; simpl; split; intros H; congruence.
  - intros ->. reflexivity.
  - intros E. rewrite E. split; [reflexivity|]. split; [reflexivity|].
    intros env. rewrite He, E. reflexivity.
Qed.

Lemma analysis_failure_visibility_witness :
  error (captureAndAnalyze Scenes.cap_silent Samples.st_streaming) = Some ""
  /\ error_shown (captureAndAnalyze Scenes.cap_silent Samples.st_streaming) = false
  /\ (forall env,
        step env EvRetryClick (captureAndAnalyze Scenes.cap_silent Samples.st_streaming) = None)
  /\ error_shown (captureAndAnalyze Samples.cap_fail Samples.st_streaming) = true.
Proof.
  destruct (analysis_failure_visibility Scenes.cap_silent (ThrownError Scenes.silent)
              Samples.st_streaming
              (mkVideo (Some Samples.rear) true 640 480) (mkCanvas true 300 150)
              eq_refl eq_refl eq_refl eq_refl) as (_ & _ & H).
  destruct (H eq_refl) as (H1 & H2 & H3).
  destruct (analysis_failure_visibility Samples.cap_fail (ThrownError Samples.quota)
              Samples.st_streaming
              (mkVideo (Some Samples.rear) true 640 480) (mkCanvas true 300 150)
              eq_refl eq_refl eq_refl eq_refl) as (H4 & _).
  split; [exact H1|]. split; [exact H2|]. split; [exact H3|].
  apply H4. discriminate.
Defined.

Lemma startCamera_with_reported cs env st :
  reported (startCamera_with cs env st) = reported st.
Proof.
  unfold startCamera_with.
  destruct (acquire_with_shape cs env (setError None (setIsStreaming false st)))
    as (L & G & H).
  destruct (acquire_with cs env (setError None (setIsStreaming false st)))
    as [[s|msg] st1]; simpl in H; subst st1.
  - unfold attach_stream. destruct (videoRef (setLiveTracks L _)) as [v|].
    + reflexivity.
    + rewrite stopTracks_shape. reflexivity.
  - reflexivity.
Qed.

(** X17. The results handed to [onAnalysisComplete] are never lost or reordered:
    an event leaves the earlier ones as they are and adds at most one, and
    only a capture click whose analysis responded adds one. *)
Theorem reports_only_grow env ev st st1 :
  step env ev st = Some st1 ->
  reported st1 = reported st
  \/ exists cap text,
       ev = EvCaptureClick cap /\ response cap = Responded text
       /\ reported st1 =
            (reported st ++ [mkResult (randomUUID cap) (now cap) (toDataURL cap) text])%list.
Proof.
  intros Hstep. destruct ev as [|v| |play|cap|]; simpl in Hstep.
  - left. destruct (timerArmed st); [|discriminate]. injection Hstep as <-.
    unfold startCamera. rewrite startCamera_with_reported. reflexivity.
  - left. injection Hstep as <-. unfold handleVisibilityChange.
    destruct (bool_decide (v = "visible")); [|reflexivity].
    destruct (_ && _); [|reflexivity].
    unfold startCamera. rewrite startCamera_with_reported. reflexivity.
  - left. destruct (truthy (error st)); [|discriminate]. injection Hstep as <-.
    unfold startCamera. rewrite startCamera_with_reported. reflexivity.
  - left. destruct (videoRef st) as [v|] eqn:Ev; [|discriminate].
    destruct (_ && _); [|discriminate]. injection Hstep as <-.
    unfold on_loadedmetadata. rewrite Ev. destruct play; reflexivity.
  - destruct (capture_disabled st); [discriminate|]. injection Hstep as <-.
    unfold captureAndAnalyze, capture_begin.
    destruct (videoRef st) as [v|]; [|left; reflexivity].
    destruct (canvasRef st) as [c|]; [|left; reflexivity].
    destruct (getContext2d c); [|left; reflexivity].
    unfold capture_settle. destruct (response cap) as [text|t] eqn:Er.
    + right. exists cap, text. repeat split; auto.
    + left. reflexivity.
  - left. injection Hstep as <-. unfold effect_setup, effect_cleanup. simpl.
    unfold stopCamera. simpl. destruct (videoRef st) as [v|]; [|reflexivity].
    destruct (srcObject v) as [s|]; [|reflexivity].
    change (reported (stopTracks (Some s) (setTimerArmed false st)) = reported st).
    rewrite stopTracks_shape. reflexivity.
Qed.

Lemma reports_only_grow_witness :
  reported (captureAndAnalyze Samples.cap_fail Samples.st_streaming) =
    reported Samples.st_streaming
  \/ exists cap text,
       EvCaptureClick Samples.cap_fail = EvCaptureClick cap /\ response cap = Responded text
       /\ reported (captureAndAnalyze Samples.cap_fail Samples.st_streaming) =
            (reported Samples.st_streaming
               ++ [mkResult (randomUUID cap) (now cap) (toDataURL cap) text])%list.
Proof.
  apply (reports_only_grow Samples.env_two_cameras (EvCaptureClick Samples.cap_fail)
           Samples.st_streaming).
  vm_compute. reflexivity.
Defined.

(** ** What the user sees while the camera starts *)

(** X18. From the moment a stream is attached until playback is confirmed, the
    spinner and the waiting footer are shown, the video is transparent and the
    capture button is disabled. Once [play()] has resolved the video is opaque,
    the spinner is gone and the button is enabled unless an analysis is
    running; when [play()] is rejected the error overlay replaces the spinner
    and the button stays disabled. *)
Theorem view_while_starting cs env st s :
  (acquire_with cs env st).1 = Stream s ->
  is_Some (videoRef st) ->
  let st1 := startCamera_with cs env st in
  let st2 := on_loadedmetadata PlayStarted st1 in
  let st3 := on_loadedmetadata PlayRejected st1 in
  (loading_shown st1 = true /\ error_shown st1 = false
   /\ video_opacity st1 = "opacity-0" /\ capture_disabled st1 = true
   /\ footer_text st1 = "Waiting for camera...")
  /\ (loading_shown st2 = false /\ error_shown st2 = false
      /\ video_opacity st2 = "opacity-100" /\ capture_disabled st2 = analyzing st
      /\ footer_text st2 = "Tap button to analyze")
  /\ (loading_shown st3 = false /\ error_shown st3 = true
      /\ video_opacity st3 = "opacity-0" /\ capture_disabled st3 = true).
Proof.
  intros Hacq [v Hv] st1 st2 st3.
  assert (exists L G,
    st1 = setVideoRef (Some (mkVideo (Some s) true (videoWidth v) (videoHeight v)))
            (setLiveTracks L (setGumCalls G (setError None (setIsStreaming false st)))))
    as (L & G & Hst1).
  { subst st1. unfold startCamera_with.
    rewrite <- (acquire_with_result cs env (setError None (setIsStreaming false st)) st)
      in Hacq by reflexivity.
    destruct (acquire_with_shape cs env (setError None (setIsStreaming false st)))
      as (L & G & Hs).
    destruct (acquire_with cs env (setError None (setIsStreaming false st)))
      as [a sta]. simpl in Hacq, Hs. subst a sta.
    exists L, G. unfold attach_stream. simpl. rewrite Hv. reflexivity. }
  subst st2 st3. clearbody st1. subst st1.
  unfold loading_shown, error_shown, video_opacity, capture_disabled, footer_text,
    on_loadedmetadata. simpl.
  repeat split; reflexivity.
Qed.

Lemma view_while_starting_witness :
  let st1 := startCamera Samples.env_two_cameras Samples.st0 in
  let st2 := on_loadedmetadata PlayStarted st1 in
  let st3 := on_loadedmetadata PlayRejected st1 in
  (loading_shown st1 = true /\ error_shown st1 = false
   /\ video_opacity st1 = "opacity-0" /\ capture_disabled st1 = true
   /\ footer_text st1 = "Waiting for camera...")
  /\ (loading_shown st2 = false /\ error_shown st2 = false
      /\ video_opacity st2 = "opacity-100" /\ capture_disabled st2 = analyzing Samples.st0
      /\ footer_text st2 = "Tap button to analyze")
  /\ (loading_shown st3 = false /\ error_shown st3 = true
      /\ video_opacity st3 = "opacity-0" /\ capture_disabled st3 = true).
Proof.
  apply (view_while_starting strategies Samples.env_two_cameras Samples.st0 Samples.rear).
  - reflexivity.
  - eexists. reflexivity.
Defined.
